(** * The stocks resource of tradingPlaygroundAPI

    A shallow embedding of [app/routes/stock_routes.js]: the five Express
    routes over the Mongoose [Stock] model, with the guards and the
    blank-field middleware they call.

    Conventions of the embedding
    - a JSON object is a finite map from property names to JSON values,
      which may themselves be objects or arrays;
    - the request body is a map from resource names to such objects
      ([{ stock: { title: ..., text: ... } }]);
    - the store holds documents under ObjectIds; the routes address them by
      the hexadecimal string of the ObjectId;
    - a route handler is a computation in a state-and-exception monad over
      the document store; the exception of a computation is the failure the
      request ends with;
    - every step of a route leaves an event in a trace, in program order, so
      that ordering properties can be stated on runs;
    - what lies outside the routes file (does a store call reject, what does
      the schema of [models/stock.js] accept and keep, which identifier does
      a new document get) is gathered in an explicit [env]. *)

From stdpp Require Import gmap strings list fin_maps.

Open Scope string_scope.

(** ** Data model *)

(** JSON values. *)
#[warnings="-register-all"] Inductive value : Type :=
  | VStr (s : string)
  | VNum (n : Z)
  | VBool (b : bool)
  | VNull
  | VObj (m : gmap string value)
  | VArr (vs : list value).

#[global] Instance value_eq_dec : EqDecision value.
Proof.
  refine (fix go (v w : value) {struct v} : Decision (v = w) :=
    match v, w with
    | VStr s, VStr t => cast_if (decide (s = t))
    | VNum n, VNum m => cast_if (decide (n = m))
    | VBool b, VBool c => cast_if (decide (b = c))
    | VNull, VNull => left _
    | VObj m, VObj n => cast_if (@decide (m = n) (@gmap_eq_dec _ _ _ _ go m n))
    | VArr vs, VArr ws => cast_if (@decide (vs = ws) (@list_eq_dec _ go vs ws))
    | _, _ => right _
    end); congruence.
Defined.

(** An object such as [req.body.stock], or a stored document. *)
Abbreviation fields := (gmap string value).

(** [req.body]: resource name to object. *)
Abbreviation payload := (gmap string fields).

(** User identities ([req.user.id]) and document identifiers
    ([req.params.id]) are strings. *)
Abbreviation identity := string (only parsing).
Abbreviation doc_id := string (only parsing).

(** ** ObjectIds *)

(** One of [0-9a-f]. *)
Definition is_hex_digit (c : Ascii.ascii) : bool :=
  let n := Ascii.N_of_ascii c in
  ((48 <=? n) && (n <=? 57) || (97 <=? n) && (n <=? 102))%N.

Fixpoint all_hex (s : string) : bool :=
  match s with
  | EmptyString => true
  | String c s' => is_hex_digit c && all_hex s'
  end.

(** The strings that are ObjectIds as the store prints them: 24
    hexadecimal digits.  The driver reads some other spellings as ObjectIds
    too (digits [A-F], and in some versions any string of twelve
    characters); a request is taken to name a document by the string the
    store prints for it. *)
Definition is_object_id (id : string) : bool :=
  (String.length id =? 24)%nat && all_hex id.

Definition object_id : Type := { id : string | Is_true (is_object_id id) }.

(** The string of an ObjectId. *)
Definition hex (i : object_id) : string := `i.

#[global] Instance hex_inj : Inj (=) (=) hex.
Proof. unfold hex. apply _. Qed.

(** The cast of a string to an ObjectId, where there is one. *)
Definition cast_id (id : string) : option object_id :=
  match decide (Is_true (is_object_id id)) with
  | left H => Some (id ↾ H)
  | right _ => None
  end.

(** ** The blank-field middleware *)

(** [obj[key] === ''] *)
Definition is_blank (v : value) : bool :=
  match v with
  | VStr s => bool_decide (s = "")
  | _ => false
  end.

Definition strip_blanks (obj : fields) : fields :=
  filter (λ kv, is_blank kv.2 = false) obj.

(** Modelled from the spec: [lib/remove_blank_fields.js] is required by the
    routes file (line 21) and is not part of the sources at hand.  Section
    4.3 of the specification: the sanitizer "produces a new payload where
    any field whose value is the empty string is removed from the inner
    mapping; non-string and non-empty values pass through unchanged". *)
Definition removeBlanks (body : payload) : payload :=
  strip_blanks <$> body.

(** ** Errors, documents and responses *)

(** The failures a request ends with.  [StoreError] stands for every
    rejection of a call of the [Stock] model other than a failed
    validation: the driver fails, the [_id] is taken, the identifier does
    not cast to an ObjectId (Mongoose's CastError), the update is not one.
    [TypeError] is what JavaScript raises when a property of [undefined] is
    written or deleted. *)
Inductive error : Type :=
  | NotFound
  | Forbidden
  | Unauthorized
  | ValidationError
  | StoreError
  | TypeError.

#[global] Instance error_eq_dec : EqDecision error.
Proof. solve_decision. Defined.

(** A Mongoose document of the [Stock] model: the string of its [_id], its
    properties and, after [.populate('owner')], the user document its owner
    refers to. *)
Record document : Type := Document {
  doc_key : doc_id;
  doc_fields : fields;
  doc_populated : option fields
}.

(** [res.status(..).json(..)] and [res.sendStatus(..)] *)
Inductive json : Type :=
  | NoContent
  | StockJson (stock : document)
  | StocksJson (stocks : list document).

Record response : Type := Response {
  status : nat;
  body : json
}.

(** ** Requests, the store and the environment *)

Record request : Type := Request {
  req_user : option identity;   (* set by the bearer strategy, if it accepts *)
  req_params_id : doc_id;       (* [req.params.id] *)
  req_body : payload            (* [req.body] *)
}.

(** The document store: the stocks collection, each document under its
    ObjectId, and the users collection that [populate] reads. *)
Record db : Type := Db {
  docs : gmap object_id fields;
  users : gmap string fields
}.

(** The stocks collection as the routes address it, by the string of the
    [_id]. *)
Definition stocks (s : db) : gmap string fields := kmap hex (docs s).

Definition insert_stock (i : object_id) (d : fields) (s : db) : db :=
  Db (<[i := d]> (docs s)) (users s).

(** The two writes on the document a string names; a string that is no
    ObjectId names none. *)
Definition alter_stock (f : fields → fields) (id : doc_id) (s : db) : db :=
  match cast_id id with
  | Some i => Db (alter f i (docs s)) (users s)
  | None => s
  end.

Definition delete_stock (id : doc_id) (s : db) : db :=
  match cast_id id with
  | Some i => Db (delete i (docs s)) (users s)
  | None => s
  end.

(** What lies outside the routes file.  The schema of [models/stock.js] is
    not part of the sources at hand: its validators and its paths are
    parameters. *)
Record env : Type := Env {
  find_rejects : bool;               (* a query rejects *)
  save_rejects : bool;               (* a write rejects *)
  schema_accepts : fields → bool;    (* the validators, on [Stock.create] *)
  new_oid : object_id;               (* the [_id] given to a new document *)
  cast_path : string → value → option value;
    (* the strict schema on one path other than [owner]: the value as the
       schema casts it, or [None] for a path the schema does not have *)
  apply_operators : fields → fields → fields
    (* the update operators other than [$set], on a stored document *)
}.

(** The string of the [_id] given to a new document. *)
Definition fresh_id (o : env) : doc_id := hex (new_oid o).

(** ** Steps and traces *)

Inductive event : Type :=
  | EvRequireToken
  | EvRemoveBlanks
  | EvDiscardOwner
  | EvSetOwner
  | EvFind
  | EvFindById (id : doc_id)
  | EvHandle404
  | EvRequireOwnership
  | EvCreate (doc : fields)
  | EvUpdateOne (id : doc_id) (upd : fields)
  | EvDeleteOne (id : doc_id)
  | EvRespond (code : nat).

#[global] Instance event_eq_dec : EqDecision event.
Proof. solve_decision. Defined.

(** The steps as the specification names them. *)
Inductive step : Type :=
  | RequireAuthentication
  | FieldSanitizer
  | DiscardClientOwner
  | SetOwner
  | LookupAll
  | LookupById
  | NotFoundGuard
  | OwnershipGuard
  | Persist
  | PartialUpdate
  | RemoveRecord
  | Respond (code : nat).

#[global] Instance step_eq_dec : EqDecision step.
Proof. solve_decision. Defined.

Definition step_of (e : event) : step :=
  match e with
  | EvRequireToken => RequireAuthentication
  | EvRemoveBlanks => FieldSanitizer
  | EvDiscardOwner => DiscardClientOwner
  | EvSetOwner => SetOwner
  | EvFind => LookupAll
  | EvFindById _ => LookupById
  | EvHandle404 => NotFoundGuard
  | EvRequireOwnership => OwnershipGuard
  | EvCreate _ => Persist
  | EvUpdateOne _ _ => PartialUpdate
  | EvDeleteOne _ => RemoveRecord
  | EvRespond c => Respond c
  end.

(** ** The monad of route handlers *)

Module Handler.

(** One run: what the request ends with, the store it leaves, and the
    steps it went through.  [inr resp] is the response that the chain of
    the route sends; [inl e] is the failure that ends the request instead:
    the error handed to [next], or for [Unauthorized] the refusal of
    [requireToken]. *)
Record run (A : Type) : Type := Run {
  outcome : error + A;
  store : db;
  trace : list event
}.
Arguments Run {A} _ _ _.
Arguments outcome {A} _.
Arguments store {A} _.
Arguments trace {A} _.

Definition M (A : Type) : Type := db → run A.

Definition ret {A} (a : A) : M A := λ s, Run (inr a) s [].

Definition throw {A} (e : error) : M A := λ s, Run (inl e) s [].

Definition bind {A B} (m : M A) (k : A → M B) : M B := λ s,
  match m s with
  | Run (inl e) s1 t1 => Run (inl e) s1 t1
  | Run (inr a) s1 t1 =>
      match k a s1 with
      | Run r s2 t2 => Run r s2 (t1 ++ t2)
      end
  end.

Definition emit (e : event) : M unit := λ s, Run (inr tt) s [e].

Definition get : M db := λ s, Run (inr s) s [].

Definition put (s : db) : M unit := λ _, Run (inr tt) s [].

(** A promise that is started and whose settlement nobody waits for: its
    effects and steps happen, its rejection reaches no handler. *)
Definition detached {A} (m : M A) : M unit := λ s,
  match m s with
  | Run _ s1 t1 => Run (inr tt) s1 t1
  end.

End Handler.

Import Handler.

Notation "x <- m ;; k" := (bind m (λ x, k))
  (at level 100, m at next level, right associativity,
   format "'[v' x  <-  m  ;;  '/' k ']'").
Notation "m ;;; k" := (bind m (λ _, k))
  (at level 100, right associativity,
   format "'[v' m  ;;;  '/' k ']'").

(** ** The [Stock] model

    The operations of the Mongoose model that the routes call.  A query
    resolves with what the collection holds, a write changes the one
    document it names; either may reject. *)

Definition fetched (kv : string * fields) : document :=
  Document kv.1 kv.2 None.

(** [Stock.find()] *)
Definition Stock_find (o : env) : M (list document) :=
  emit EvFind ;;;
  if find_rejects o then throw StoreError
  else s <- get ;; ret (fetched <$> map_to_list (stocks s)).

(** [Stock.findById(id)]: the identifier is cast to an ObjectId, which
    rejects (CastError) for a string that is none; then the document, or
    [null]. *)
Definition Stock_findById (o : env) (id : doc_id) : M (option document) :=
  emit (EvFindById id) ;;;
  if find_rejects o then throw StoreError
  else if negb (is_object_id id) then throw StoreError
  else s <- get ;; ret ((λ d, Document id d None) <$> stocks s !! id).

(** The strict schema on one path.  [owner] is a path of the schema (the
    routes populate it and the ownership guard reads it) and a reference is
    kept as it is given; whether a value is refused on its path is part of
    what [schema_accepts] and [save_rejects] decide. *)
Definition cast (o : env) (k : string) (v : value) : option value :=
  if decide (k = "owner") then Some v else cast_path o k v.

(** The strict schema on an object: every property is cast on its path,
    and dropped where the schema has no such path. *)
Definition shaped (o : env) (obj : fields) : fields :=
  map_imap (cast o) obj.

(** [Stock.create(obj)]: validation, then insertion under a new [_id] of
    what the schema keeps of [obj]; an [_id] already taken is a
    duplicate-key rejection. *)
Definition Stock_create (o : env) (obj : fields) : M document :=
  emit (EvCreate obj) ;;;
  if negb (schema_accepts o obj) then throw ValidationError
  else if save_rejects o then throw StoreError
  else
    s <- get ;;
    match stocks s !! fresh_id o with
    | Some _ => throw StoreError
    | None =>
        put (insert_stock (new_oid o) (shaped o obj) s) ;;;
        ret (Document (fresh_id o) (shaped o obj) None)
    end.

(** A property name that is an update operator ([$set], [$unset], ...). *)
Definition is_operator (k : string) : bool :=
  match k with
  | String c _ => (Ascii.N_of_ascii c =? 36)%N
  | EmptyString => false
  end.

(** The properties of an update that are no operators: Mongoose sets
    them. *)
Definition plain_part (upd : fields) : fields :=
  filter (λ kv, is_operator kv.1 = false) upd.

(** The properties under [$set]: Mongoose sets them too. *)
Definition set_part (upd : fields) : fields :=
  match upd !! "$set" with
  | Some (VObj m) => m
  | _ => ∅
  end.

(** A [$set] that is no object: Mongoose refuses the update. *)
Definition malformed_set (upd : fields) : bool :=
  match upd !! "$set" with
  | Some (VObj _) | None => false
  | Some _ => true
  end.

Definition other_operators (upd : fields) : fields :=
  filter (λ kv, is_operator kv.1 = true ∧ kv.1 ≠ "$set") upd.

(** The stored document [d] after the update [upd]: the properties that
    are set, as the schema keeps them, replace those of [d]; the other
    operators, where there are any, act on [d] as [env] says. *)
Definition updated (o : env) (upd d : fields) : fields :=
  shaped o (plain_part upd ∪ set_part upd)
  ∪ (if decide (other_operators upd = ∅) then d
     else apply_operators o (other_operators upd) d).

(** [stock.updateOne(upd)] *)
Definition stock_updateOne (o : env) (stock : document) (upd : fields) : M unit :=
  emit (EvUpdateOne (doc_key stock) upd) ;;;
  if save_rejects o then throw StoreError
  else if malformed_set upd then throw StoreError
  else
    s <- get ;;
    put (alter_stock (updated o upd) (doc_key stock) s).

(** [stock.deleteOne()] *)
Definition stock_deleteOne (o : env) (stock : document) : M unit :=
  emit (EvDeleteOne (doc_key stock)) ;;;
  if save_rejects o then throw StoreError
  else
    s <- get ;;
    put (delete_stock (doc_key stock) s).

(** The identity a document's [owner] property refers to. *)
Definition owner_ref (d : fields) : option identity :=
  match d !! "owner" with
  | Some (VStr u) => Some u
  | _ => None
  end.

(** [.populate('owner')] on one document: the owner reference is resolved
    in the users collection ([null] when no such user is left). *)
Definition populate_owner (s : db) (d : document) : document :=
  Document (doc_key d) (doc_fields d) (owner_ref (doc_fields d) ≫= (users s !!.)).

(** [stock.toObject()]: the plain copy of a document; the embedding does
    not tell a document from its copy. *)
Definition toObject (d : document) : document := d.

(** ** Middleware and guards *)

(** [passport.authenticate('bearer', { session: false })]: the route is
    reached only with a user.  Without one the request ends here: passport
    answers 401 itself and calls neither the route nor the error handler;
    the run records that end as [Unauthorized], and no step of the route
    follows. *)
Definition requireToken (req : request) : M identity :=
  emit EvRequireToken ;;;
  match req_user req with
  | Some u => ret u
  | None => throw Unauthorized
  end.

(** The sanitizer as a middleware of the route. *)
Definition removeBlanks_mw (b : payload) : M payload :=
  emit EvRemoveBlanks ;;; ret (removeBlanks b).

(** Modelled from the spec: [handle404] of [lib/custom_errors.js] (lines
    11-14 of the routes file) is not part of the sources at hand.  Section
    4.1: "If absent, fails with a NotFound error [...]. If present, passes
    the record through unchanged to the next stage." *)
Definition handle404 {A} (record : option A) : M A :=
  emit EvHandle404 ;;;
  match record with
  | None => throw NotFound
  | Some r => ret r
  end.

(** Modelled from the spec: [requireOwnership] of [lib/custom_errors.js]
    (lines 15-17 of the routes file) is not part of the sources at hand.
    Section 4.2: "Compares requester identity to the record's owner. If
    they differ, fails with a Forbidden error [...]. If they match, returns
    normally". *)
Definition requireOwnership (u : identity) (stock : document) : M unit :=
  emit EvRequireOwnership ;;;
  if decide (owner_ref (doc_fields stock) = Some u) then ret tt
  else throw Forbidden.

Definition respond (code : nat) (b : json) : M response :=
  emit (EvRespond code) ;;; ret (Response code b).

Definition sendStatus (code : nat) : M response := respond code NoContent.

(** ** The routes *)

(** INDEX, [GET /stocks] (lines 32-45).  The [console.log] of line 38 is
    diagnostic output and has no counterpart here. *)
Definition index (o : env) (req : request) : M response :=
  found <- Stock_find o ;;
  s <- get ;;
  let stocks := populate_owner s <$> found in
  respond 200 (StocksJson (toObject <$> stocks)).

(** SHOW, [GET /stocks/:id] (lines 49-57). *)
Definition show (o : env) (req : request) : M response :=
  found <- Stock_findById o (req_params_id req) ;;
  s <- get ;;
  stock <- handle404 (populate_owner s <$> found) ;;
  respond 200 (StockJson (toObject stock)).

(** CREATE, [POST /stocks] (lines 61-75).  Line 64 writes a property of
    [req.body.stock]; on a body without [stock] that is a [TypeError]. *)
Definition create (o : env) (req : request) : M response :=
  u <- requireToken req ;;
  emit EvSetOwner ;;;
  match req_body req !! "stock" with
  | None => throw TypeError
  | Some obj =>
      stock <- Stock_create o (<["owner" := VStr u]> obj) ;;
      respond 201 (StockJson (toObject stock))
  end.

(** UPDATE, [PATCH /stocks/:id] (lines 79-98): the middlewares
    [requireToken] and [removeBlanks] run before the handler, whose first
    statement (line 82) deletes [owner] from [req.body.stock]. *)
Definition update (o : env) (req : request) : M response :=
  u <- requireToken req ;;
  b <- removeBlanks_mw (req_body req) ;;
  emit EvDiscardOwner ;;;
  match b !! "stock" with
  | None => throw TypeError
  | Some obj =>
      let upd := delete "owner" obj in
      found <- Stock_findById o (req_params_id req) ;;
      stock <- handle404 found ;;
      requireOwnership u stock ;;;
      stock_updateOne o stock upd ;;;
      sendStatus 204
  end.

(** DESTROY, [DELETE /stocks/:id] (lines 102-115).  The callback of lines
    105-110 calls [stock.deleteOne()] and returns nothing, so the chain
    goes on without the promise of the removal. *)
Definition destroy (o : env) (req : request) : M response :=
  u <- requireToken req ;;
  found <- Stock_findById o (req_params_id req) ;;
  stock <- handle404 found ;;
  requireOwnership u stock ;;;
  detached (stock_deleteOne o stock) ;;;
  sendStatus 204.

(** ** Routes by verb, and the orders of steps *)

(** The three routes that look a document up by [req.params.id]. *)
Inductive verb : Type := GET | PATCH | DELETE.

Definition by_id (v : verb) : env → request → M response :=
  match v with
  | GET => show
  | PATCH => update
  | DELETE => destroy
  end.

(** A request body as the interface of UPDATE describes it: it has a
    [stock] object.  DESTROY reads no body. *)
Definition well_formed (v : verb) (req : request) : Prop :=
  match v with
  | PATCH => is_Some (req_body req !! "stock")
  | _ => True
  end.

(** The order of UPDATE as section 4.4 of the specification gives it. *)
Definition claimed_update_order : list step :=
  [RequireAuthentication; DiscardClientOwner; FieldSanitizer; LookupById;
   NotFoundGuard; OwnershipGuard; PartialUpdate; Respond 204].

(** The order of UPDATE in the routes file: the middlewares of line 79,
    then line 82, then the promise chain of lines 84-95. *)
Definition update_order : list step :=
  [RequireAuthentication; FieldSanitizer; DiscardClientOwner; LookupById;
   NotFoundGuard; OwnershipGuard; PartialUpdate; Respond 204].

(** A write to the store. *)
Definition is_write (e : event) : bool :=
  match e with
  | EvCreate _ | EvUpdateOne _ _ | EvDeleteOne _ => true
  | _ => false
  end.

(** The update handed to the store says nothing about [owner]. *)
Definition keeps_owner_out (e : event) : Prop :=
  match e with
  | EvUpdateOne _ upd => upd !! "owner" = None
  | _ => True
  end.

(** The [owner] property of the stored document [id], if any. *)
Definition owner_at (s : db) (id : doc_id) : option value :=
  stocks s !! id ≫= (.!! "owner").

(** ** Sample data *)

Module Sample.

Definition alice : identity := "5f1a00000000000000000a11".
Definition bob : identity := "5f1a00000000000000000b0b".

Definition aapl : fields :=
  {[ "title" := VStr "AAPL"; "text" := VStr "buy"; "owner" := VStr alice ]}.

Definition aapl_id : object_id := "5a7db6c74d55bc51bdf39793" ↾ I.

(** One stock, owned by alice. *)
Definition db1 : db :=
  Db {[ aapl_id := aapl ]}
     {[ alice := {[ "email" := VStr "alice@example.com" ]} ]}.

(** Modelled from the spec: [models/stock.js] is not part of the sources at
    hand.  Section 3 of the specification: a Stock has the fields [title]
    (text), [text] (text) and [owner].  The samples send strings, which
    these paths keep as they are. *)
Definition stock_paths (k : string) (v : value) : option value :=
  if bool_decide (k = "title" ∨ k = "text") then Some v else None.

(** Every store call resolves; the schema accepts everything it has a path
    for; no operator other than [$set] is used. *)
Definition calm : env :=
  Env false false (λ _, true) ("5a7db6c74d55bc51bdf39794" ↾ I)
    stock_paths (λ _ d, d).

(** Queries resolve, writes reject. *)
Definition failing_writes : env :=
  Env false true (λ _, true) ("5a7db6c74d55bc51bdf39794" ↾ I)
    stock_paths (λ _ d, d).

(** [PATCH /stocks/5a7d..793] by alice, with a blank title and a foreign
    owner in the payload. *)
Definition patch_by_owner : request :=
  Request (Some alice) "5a7db6c74d55bc51bdf39793"
    {[ "stock" := {[ "title" := VStr ""; "text" := VStr "sell";
                     "owner" := VStr bob ]} ]}.

(** The same by bob. *)
Definition patch_by_other : request :=
  Request (Some bob) "5a7db6c74d55bc51bdf39793"
    {[ "stock" := {[ "text" := VStr "sell" ]} ]}.

(** [PATCH] by bob with the body [{}]. *)
Definition patch_empty_body : request :=
  Request (Some bob) "5a7db6c74d55bc51bdf39793" ∅.

(** [DELETE /stocks/5a7d..793] by alice. *)
Definition delete_by_owner : request :=
  Request (Some alice) "5a7db6c74d55bc51bdf39793" ∅.

(** [DELETE] of an identifier the store does not have. *)
Definition delete_missing : request :=
  Request (Some alice) "000000000000000000000000" ∅.

(** [POST /stocks] by bob, the payload naming alice as owner. *)
Definition post_by_bob : request :=
  Request (Some bob) ""
    {[ "stock" := {[ "title" := VStr "AAPL"; "text" := VStr "buy";
                     "owner" := VStr alice ]} ]}.

End Sample.

(** ** The router *)

(** The five routes of the router (lines 32, 49, 61, 79 and 102). *)
Inductive route : Type := Index | Show | Create | Update | Destroy.

Definition handler (r : route) : env → request → M response :=
  match r with
  | Index => index
  | Show => show
  | Create => create
  | Update => update
  | Destroy => destroy
  end.

(** The routes that have [requireToken] among their middlewares. *)
Definition protected (r : route) : bool :=
  match r with
  | Index | Show => false
  | Create | Update | Destroy => true
  end.

(** The status at the end of the chain of a route (lines 42, 54, 69, 95
    and 112). *)
Definition success_status (r : route) : nat :=
  match r with
  | Index | Show => 200
  | Create => 201
  | Update | Destroy => 204
  end.

Definition is_respond (e : event) : bool :=
  match e with
  | EvRespond _ => true
  | _ => false
  end.

(** A call of the [Stock] model, query or write. *)
Definition is_store_call (e : event) : bool :=
  match e with
  | EvFind | EvFindById _ => true
  | _ => is_write e
  end.


(** A [stock] object without update operators. *)
Definition operator_free (obj : fields) : Prop :=
  map_Forall (λ k _, is_operator k = false) obj.

(** What a PATCH without operators leaves of field [k] of the stored
    document [d], given the [stock] object [obj] of the request: a field
    that is sent and not blank is stored as the schema casts it, where the
    schema has such a path. *)
Definition patched (o : env) (obj d : fields) (k : string) : option value :=
  if decide (k = "owner") then d !! k
  else match obj !! k with
       | Some v =>
           if is_blank v then d !! k
           else match cast_path o k v with
                | Some v' => Some v'
                | None => d !! k
                end
       | None => d !! k
       end.

(** A request that gets past [requireToken] on route [r]. *)
Definition admitted (r : route) (req : request) : Prop :=
  protected r = false ∨ is_Some (req_user req).

Module Scenario.

(** [DELETE /stocks/5a7d..793] without a bearer token. *)
Definition anonymous_delete : request :=
  Request None "5a7db6c74d55bc51bdf39793" ∅.

(** [POST /stocks] by alice with the body [{}]. *)
Definition post_empty_body : request :=
  Request (Some Sample.alice) "" ∅.


(** [POST /stocks] by bob with a blank text and a field the schema does
    not have. *)
Definition post_bogus_field : request :=
  Request (Some Sample.bob) ""
    {[ "stock" := {[ "title" := VStr "MSFT"; "text" := VStr "";
                     "bogus" := VNum 1 ]} ]}.

(** The request of [curl-scripts/stocks/index.sh]: [GET /stocks] with an
    [Authorization: Bearer ${TOKEN}] header and no body; [who] is the user
    the token stands for, if any. *)
Definition index_sh (who : option identity) : request :=
  Request who "" ∅.


(** [GET /stocks/5a7d..794], the identifier [Sample.calm] gives to a new
    document. *)
Definition get_new : request :=
  Request None "5a7db6c74d55bc51bdf39794" ∅.



(** [PATCH /stocks/5a7d..793] by alice, its owner, with the body
    [{ stock: { $set: { owner: <bob> } } }]. *)
Definition patch_set_owner : request :=
  Request (Some Sample.alice) "5a7db6c74d55bc51bdf39793"
    {[ "stock" := {[ "$set" := VObj {[ "owner" := VStr Sample.bob ]} ]} ]}.

End Scenario.

(** * Properties *)

(** ** Proof automation for runs *)

Ltac run_simpl :=
  cbn [outcome store trace users docs doc_key doc_fields doc_populated
       app fmap option_fmap option_map negb by_id].

Ltac run_unfold :=
  unfold by_id, update, destroy, show, index, create, requireToken,
    removeBlanks_mw, Stock_findById, Stock_find, Stock_create,
    stock_updateOne, stock_deleteOne, handle404, requireOwnership,
    sendStatus, respond, detached, toObject, bind, emit, get, put, ret, throw;
  run_simpl.

(** Splits a run on the next thing still undecided. *)
Ltac run_case :=
  match goal with
  | |- context [match req_user ?r with _ => _ end] =>
      destruct (req_user r) as [?u|] eqn:?
  | |- context [match ?b !! "stock" with _ => _ end] =>
      destruct (b !! "stock") as [?obj|] eqn:?
  | |- context [if find_rejects ?o then _ else _] =>
      destruct (find_rejects o) eqn:?
  | |- context [if negb (is_object_id ?i) then _ else _] =>
      destruct (is_object_id i) eqn:?
  | |- context [_ <$> stocks ?s !! ?i] =>
      destruct (stocks s !! i) as [?d|] eqn:?
  | |- context [decide (owner_ref ?d = Some ?u)] =>
      destruct (decide (owner_ref d = Some u))
  | |- context [if negb (schema_accepts ?o ?d) then _ else _] =>
      destruct (schema_accepts o d) eqn:?
  | |- context [if save_rejects ?o then _ else _] =>
      destruct (save_rejects o) eqn:?
  | |- context [if malformed_set ?u then _ else _] =>
      destruct (malformed_set u) eqn:?
  | |- context [match stocks ?s !! ?i with _ => _ end] =>
      destruct (stocks s !! i) as [?d|] eqn:?
  end; run_simpl.

Ltac run_cases := run_unfold; repeat run_case.

(** Discharges [Forall P t] on an explicit trace, leaving the events on
    which [P] does not compute to [True]. *)
Ltac trace_forall :=
  repeat match goal with
    | |- Forall _ [] => constructor
    | |- Forall _ (_ :: _) => constructor; [try exact I|]
    end.

(** Refutes [H : e ∈ t] for an event that an explicit trace does not have. *)
Ltac not_in_trace H :=
  repeat (apply elem_of_cons in H as [H|H]; [discriminate H|]);
  by apply elem_of_nil in H.

(** All runs of a route of the router. *)
Ltac route_cases r :=
  destruct r; cbn [handler protected success_status];
  run_unfold; repeat run_case.



(** ** The store by strings *)


Lemma cast_id_Some (id : doc_id) (i : object_id) :
  cast_id id = Some i → hex i = id.
Proof.
  unfold cast_id. destruct (decide _); [|done]. by intros [= <-].
Qed.

Lemma cast_id_None (id : doc_id) :
  cast_id id = None ↔ is_object_id id = false.
Proof.
  unfold cast_id. destruct (decide _) as [H|H].
  - assert (is_object_id id = true) by (by apply Is_true_true).
    split; [done|congruence].
  - split; [|done]. intros _. by destruct (is_object_id id).
Qed.


Lemma stocks_lookup_valid (s : db) (id : doc_id) (d : fields) :
  stocks s !! id = Some d → is_object_id id = true.
Proof.
  unfold stocks. intros ([i Hi] & -> & _)%lookup_kmap_Some; [|apply _].
  cbn [hex proj1_sig]. by apply Is_true_true.
Qed.

Lemma stocks_lookup_invalid (s : db) (id : doc_id) :
  cast_id id = None → stocks s !! id = None.
Proof.
  intros Hid. destruct (stocks s !! id) as [d|] eqn:Hd; [|done].
  apply stocks_lookup_valid in Hd. apply cast_id_None in Hid. congruence.
Qed.

Lemma stocks_insert_stock (i : object_id) (d : fields) (s : db) :
  stocks (insert_stock i d s) = <[hex i := d]> (stocks s).
Proof. unfold stocks, insert_stock. cbn [docs]. apply (kmap_insert hex). Qed.

Lemma stocks_alter_stock (f : fields → fields) (id : doc_id) (s : db) :
  stocks (alter_stock f id s) = alter f id (stocks s).
Proof.
  unfold alter_stock. destruct (cast_id id) as [i|] eqn:Hid.
  - apply cast_id_Some in Hid as <-. unfold stocks. cbn [docs].
    apply (kmap_alter hex).
  - symmetry. by apply alter_id', stocks_lookup_invalid.
Qed.

Lemma stocks_delete_stock (id : doc_id) (s : db) :
  stocks (delete_stock id s) = delete id (stocks s).
Proof.
  unfold delete_stock. destruct (cast_id id) as [i|] eqn:Hid.
  - apply cast_id_Some in Hid as <-. unfold stocks. cbn [docs].
    apply (kmap_delete hex).
  - symmetry. by apply delete_id, stocks_lookup_invalid.
Qed.

Lemma users_insert_stock (i : object_id) (d : fields) (s : db) :
  users (insert_stock i d s) = users s.
Proof. done. Qed.

Lemma users_alter_stock (f : fields → fields) (id : doc_id) (s : db) :
  users (alter_stock f id s) = users s.
Proof. unfold alter_stock. by destruct (cast_id id). Qed.

Lemma users_delete_stock (id : doc_id) (s : db) :
  users (delete_stock id s) = users s.
Proof. unfold delete_stock. by destruct (cast_id id). Qed.

Lemma stocks_empty (us : gmap string fields) : stocks (Db ∅ us) = ∅.
Proof. unfold stocks. cbn [docs]. apply (kmap_empty hex). Qed.


(** ** The sanitizer *)

(** The example in the comment at lines 19-20 of the routes file:
    [{ stock: { title: '', text: 'foo' } } -> { stock: { text: 'foo' } }]. *)
Example removeBlanks_comment_example :
  removeBlanks {[ "stock" := {[ "title" := VStr ""; "text" := VStr "foo" ]} ]}
  = {[ "stock" := {[ "text" := VStr "foo" ]} ]}.
Proof. by vm_compute. Qed.

Lemma is_blank_spec (v : value) : is_blank v = true ↔ v = VStr "".
Proof.
  destruct v as [s| | | | |]; simpl; try (split; [discriminate|discriminate]).
  rewrite bool_decide_eq_true. split; [by intros ->|by intros [= ->]].
Qed.

Lemma strip_blanks_lookup (obj : fields) (k : string) :
  strip_blanks obj !! k
  = if decide (obj !! k = Some (VStr "")) then None else obj !! k.
Proof.
  unfold strip_blanks. rewrite map_lookup_filter.
  destruct (obj !! k) as [v|] eqn:E; simpl.
  - case_guard as Hg; simpl in *; case_decide as Hd; try done.
    + injection Hd as ->. discriminate Hg.
    + destruct (is_blank v) eqn:Hb; [|done].
      apply is_blank_spec in Hb. by subst.
  - done.
Qed.

Lemma strip_blanks_idemp (obj : fields) :
  strip_blanks (strip_blanks obj) = strip_blanks obj.
Proof.
  apply map_eq. intros k. rewrite !strip_blanks_lookup.
  repeat case_decide; done.
Qed.

Lemma removeBlanks_lookup (b : payload) (r : string) :
  removeBlanks b !! r = strip_blanks <$> b !! r.
Proof. unfold removeBlanks. apply lookup_fmap. Qed.

(** C7.  The sanitizer keeps the resources of the payload, and in the
    object of a resource it removes exactly the fields whose value is the
    empty string: a field of the result is absent when it was [''] in the
    input, and otherwise is what it was in the input (a number, a boolean,
    [null], a non-empty string, or absent). *)
Theorem removeBlanks_fields (b : payload) (r : string) (obj : fields)
    (Hobj : b !! r = Some obj) :
  dom (removeBlanks b) = dom b ∧
  ∃ obj', removeBlanks b !! r = Some obj' ∧
    ∀ k, obj' !! k
         = if decide (obj !! k = Some (VStr "")) then None else obj !! k.
Proof.
  split.
  - unfold removeBlanks. apply dom_fmap_L.
  - exists (strip_blanks obj). split.
    + by rewrite removeBlanks_lookup, Hobj.
    + apply strip_blanks_lookup.
Qed.

Lemma removeBlanks_fields_witness :
  dom (removeBlanks (req_body Sample.patch_by_owner))
  = dom (req_body Sample.patch_by_owner) ∧
  ∃ obj', removeBlanks (req_body Sample.patch_by_owner) !! "stock" = Some obj' ∧
    ∀ k, obj' !! k
         = if decide (({[ "title" := VStr ""; "text" := VStr "sell";
                          "owner" := VStr Sample.bob ]} : fields) !! k
                      = Some (VStr ""))
           then None
           else ({[ "title" := VStr ""; "text" := VStr "sell";
                    "owner" := VStr Sample.bob ]} : fields) !! k.
Proof.
  apply (removeBlanks_fields (req_body Sample.patch_by_owner) "stock").
  by vm_compute.
Defined.

(** C8.  The sanitizer is idempotent. *)
Theorem removeBlanks_idempotent (b : payload) :
  removeBlanks (removeBlanks b) = removeBlanks b.
Proof.
  unfold removeBlanks. rewrite <- map_fmap_compose.
  apply map_fmap_ext. intros r obj _. apply strip_blanks_idemp.
Qed.


(** ** The owner of a document *)

Lemma merge_keeps_owner (upd d : fields) :
  upd !! "owner" = None → (upd ∪ d) !! "owner" = d !! "owner".
Proof. intros H. by rewrite lookup_union_r. Qed.

Lemma shaped_lookup (o : env) (obj : fields) (k : string) :
  shaped o obj !! k = obj !! k ≫= cast o k.
Proof. unfold shaped. apply map_lookup_imap. Qed.

Lemma shaped_owner (o : env) (obj : fields) :
  shaped o obj !! "owner" = obj !! "owner".
Proof.
  rewrite shaped_lookup. destruct (obj !! "owner") as [v|]; [|done].
  cbn [mbind option_bind]. unfold cast. by rewrite decide_True.
Qed.

Lemma operator_free_no_set (upd : fields) :
  operator_free upd → upd !! "$set" = None.
Proof.
  intros Hfree. destruct (upd !! "$set") as [v|] eqn:Hv; [|done].
  by apply Hfree in Hv.
Qed.

Lemma updated_operator_free (o : env) (upd d : fields) :
  operator_free upd → updated o upd d = shaped o upd ∪ d.
Proof.
  intros Hfree. unfold updated, set_part.
  rewrite (operator_free_no_set upd Hfree).
  assert (plain_part upd = upd) as ->.
  { apply map_filter_id. intros k v Hk. by apply Hfree in Hk. }
  assert (other_operators upd = ∅) as ->.
  { apply map_empty_filter. intros k v Hk [Hop _].
    apply Hfree in Hk. cbn in *. congruence. }
  rewrite decide_True by done. by rewrite (right_id_L ∅ (∪)).
Qed.

Lemma operator_free_sanitized (obj : fields) :
  operator_free obj → operator_free (delete "owner" (strip_blanks obj)).
Proof.
  intros Hfree k v [_ Hk]%lookup_delete_Some.
  rewrite strip_blanks_lookup in Hk. case_decide; [done|].
  by apply Hfree in Hk.
Qed.

(** Whatever the payload, the update that the route hands to the store has
    no field [owner] of its own (line 82). *)
Lemma update_hands_over_no_owner_field (o : env) (req : request) (s : db) :
  Forall keeps_owner_out (trace (update o req s)).
Proof. run_cases; trace_forall; apply lookup_delete_eq. Qed.

(** C1, at the failing input.  Alice patches her stock with
    [{ stock: { $set: { owner: <bob> } } }]: line 82 finds no field [owner]
    to delete, the update reaches the store with its [$set], the request is
    answered 204, and the stock that was alice's is bob's. *)
Theorem set_operator_changes_owner :
  owner_at Sample.db1 "5a7db6c74d55bc51bdf39793" = Some (VStr Sample.alice) ∧
  outcome (update Sample.calm Scenario.patch_set_owner Sample.db1)
  = inr (Response 204 NoContent) ∧
  EvUpdateOne "5a7db6c74d55bc51bdf39793"
    {[ "$set" := VObj {[ "owner" := VStr Sample.bob ]} ]}
  ∈ trace (update Sample.calm Scenario.patch_set_owner Sample.db1) ∧
  owner_at (store (update Sample.calm Scenario.patch_set_owner Sample.db1))
    "5a7db6c74d55bc51bdf39793"
  = Some (VStr Sample.bob).
Proof.
  split; [by vm_compute|]. split; [by vm_compute|]. split; [|by vm_compute].
  vm_compute. do 6 apply list_elem_of_further. apply list_elem_of_here.
Qed.

(** The scenario of section 8: a blank title and a foreign owner in the
    payload of the owner's PATCH change the text only. *)
Example patch_by_owner_changes_text_only :
  outcome (update Sample.calm Sample.patch_by_owner Sample.db1)
  = inr (Response 204 NoContent) ∧
  stocks (store (update Sample.calm Sample.patch_by_owner Sample.db1))
    !! "5a7db6c74d55bc51bdf39793"
  = Some {[ "title" := VStr "AAPL"; "text" := VStr "sell";
            "owner" := VStr Sample.alice ]}.
Proof. split; by vm_compute. Qed.

(** ** Creation *)

(** C6.  A create request by an authenticated requester [u], with a
    payload that has a [stock] object which the schema accepts once [owner]
    is set, and a store that takes the write: the response is 201 with the
    created document, whose owner is [u], and that document is what the
    store holds under its identifier. *)
Theorem create_sets_owner (o : env) (req : request) (s : db)
    (u : identity) (obj : fields)
    (Hauth : req_user req = Some u)
    (Hbody : req_body req !! "stock" = Some obj)
    (Hvalid : schema_accepts o (<["owner" := VStr u]> obj) = true)
    (Hsave : save_rejects o = false)
    (Hfresh : stocks s !! fresh_id o = None) :
  ∃ stock,
    outcome (create o req s) = inr (Response 201 (StockJson stock)) ∧
    doc_fields stock !! "owner" = Some (VStr u) ∧
    stocks (store (create o req s)) !! doc_key stock = Some (doc_fields stock) ∧
    owner_at (store (create o req s)) (doc_key stock) = Some (VStr u).
Proof.
  exists (Document (fresh_id o) (shaped o (<["owner" := VStr u]> obj)) None).
  run_unfold.
  repeat (first [rewrite Hauth | rewrite Hbody | rewrite Hvalid
                | rewrite Hsave | rewrite Hfresh]; run_simpl).
  assert (shaped o (<["owner" := VStr u]> obj) !! "owner" = Some (VStr u))
    as Hown by (by rewrite shaped_owner, lookup_insert_eq).
  unfold owner_at. rewrite stocks_insert_stock. unfold fresh_id.
  rewrite !lookup_insert_eq. by cbn.
Qed.

Lemma create_sets_owner_witness :
  ∃ stock,
    outcome (create Sample.calm Sample.post_by_bob Sample.db1)
    = inr (Response 201 (StockJson stock)) ∧
    doc_fields stock !! "owner" = Some (VStr Sample.bob) ∧
    stocks (store (create Sample.calm Sample.post_by_bob Sample.db1))
      !! doc_key stock = Some (doc_fields stock) ∧
    owner_at (store (create Sample.calm Sample.post_by_bob Sample.db1))
      (doc_key stock) = Some (VStr Sample.bob).
Proof.
  apply (create_sets_owner Sample.calm Sample.post_by_bob Sample.db1 Sample.bob
           {[ "title" := VStr "AAPL"; "text" := VStr "buy";
              "owner" := VStr Sample.alice ]});
    by vm_compute.
Defined.

(** ** Lookups and guards *)

Lemma findById_found (o : env) (id : doc_id) (s : db) (stock : document) :
  outcome (Stock_findById o id s) = inr (Some stock) →
  find_rejects o = false ∧ is_object_id id = true ∧
  ∃ d, stocks s !! id = Some d ∧ stock = Document id d None.
Proof. run_cases; intros [= <-] || intros [=]. eauto. Qed.




(** The scenario of section 8: GET of an identifier nobody has is a 404. *)
Example show_missing_is_NotFound :
  outcome (show Sample.calm Sample.delete_missing Sample.db1) = inl NotFound.
Proof. by vm_compute. Qed.

(** C2 as it is stated fails on an update request whose body has no
    [stock] object: bob is authenticated, the document exists and is
    alice's, and the request ends with the [TypeError] of line 82, which is
    reached before the lookup and the guards. *)
Lemma patch_without_stock_is_not_forbidden :
  req_user Sample.patch_empty_body = Some Sample.bob ∧
  outcome (Stock_findById Sample.calm (req_params_id Sample.patch_empty_body)
             Sample.db1)
  = inr (Some (Document "5a7db6c74d55bc51bdf39793" Sample.aapl None)) ∧
  owner_ref Sample.aapl = Some Sample.alice ∧
  Sample.alice ≠ Sample.bob ∧
  outcome (update Sample.calm Sample.patch_empty_body Sample.db1)
  = inl TypeError ∧
  ¬ (outcome (update Sample.calm Sample.patch_empty_body Sample.db1)
     = inl Forbidden).
Proof. repeat split; (by vm_compute) || (by intros [=]). Qed.

(** C2, amended.  On a DELETE request, and on a PATCH request whose body
    has a [stock] object: when the requester is authenticated, the lookup
    resolves with the target document and the requester is not its owner,
    the request ends with [Forbidden], the store is what it was, and no
    write was handed to the store. *)
Theorem non_owner_is_forbidden (v : verb) (o : env) (req : request) (s : db)
    (u : identity) (stock : document)
    (Hmut : v ≠ GET)
    (Hauth : req_user req = Some u)
    (Hbody : well_formed v req)
    (Hfound : outcome (Stock_findById o (req_params_id req) s)
              = inr (Some stock))
    (Hother : owner_ref (doc_fields stock) ≠ Some u) :
  outcome (by_id v o req s) = inl Forbidden ∧
  store (by_id v o req s) = s ∧
  Forall (λ e, is_write e = false) (trace (by_id v o req s)).
Proof.
  apply findById_found in Hfound as (Hq & Hid & d & Hd & ->).
  cbn [doc_fields] in Hother.
  destruct v; [done| |].
  - destruct Hbody as [obj Hobj].
    run_unfold.
    repeat (first [rewrite Hauth | rewrite removeBlanks_lookup, Hobj
                  | rewrite Hq | rewrite Hid | rewrite Hd]; run_simpl).
    destruct (decide (owner_ref d = Some u)); [done|]. run_simpl.
    repeat split. trace_forall; done.
  - run_unfold.
    repeat (first [rewrite Hauth | rewrite Hq | rewrite Hid | rewrite Hd];
            run_simpl).
    destruct (decide (owner_ref d = Some u)); [done|]. run_simpl.
    repeat split. trace_forall; done.
Qed.

Lemma non_owner_is_forbidden_witness :
  outcome (by_id PATCH Sample.calm Sample.patch_by_other Sample.db1)
  = inl Forbidden ∧
  store (by_id PATCH Sample.calm Sample.patch_by_other Sample.db1)
  = Sample.db1 ∧
  Forall (λ e, is_write e = false)
    (trace (by_id PATCH Sample.calm Sample.patch_by_other Sample.db1)).
Proof.
  apply (non_owner_is_forbidden PATCH Sample.calm Sample.patch_by_other
           Sample.db1 Sample.bob
           (Document "5a7db6c74d55bc51bdf39793" Sample.aapl None)).
  - discriminate.
  - reflexivity.
  - vm_compute. eauto.
  - by vm_compute.
  - vm_compute. discriminate.
Defined.

(** C9.  In a run of a route by identifier, whenever the ownership guard
    is evaluated, the not-found guard was evaluated earlier in the run and
    the store has a document under the identifier of the request. *)
Theorem ownership_guard_follows_not_found_guard
    (v : verb) (o : env) (req : request) (s : db) (pre post : list event)
    (Hsplit : trace (by_id v o req s)
              = (pre ++ EvRequireOwnership :: post)%list) :
  EvHandle404 ∈ pre ∧ is_Some (stocks s !! req_params_id req).
Proof.
  revert Hsplit.
  destruct v; run_cases; intros Hsplit;
    repeat (destruct pre as [|? pre]; cbn [app] in Hsplit;
            [discriminate Hsplit || injection Hsplit as -> ..
            |injection Hsplit as <- Hsplit]);
    try (destruct pre; discriminate Hsplit);
    (split; [set_solver|eauto]).
Qed.

Lemma ownership_guard_follows_not_found_guard_witness :
  EvHandle404 ∈ [EvRequireToken; EvFindById "5a7db6c74d55bc51bdf39793";
                 EvHandle404] ∧
  is_Some (stocks Sample.db1 !! req_params_id Sample.delete_by_owner).
Proof.
  apply (ownership_guard_follows_not_found_guard DELETE Sample.calm
           Sample.delete_by_owner Sample.db1 _
           [EvDeleteOne "5a7db6c74d55bc51bdf39793"; EvRespond 204]).
  by vm_compute.
Defined.


(** ** Failures of the store *)

(** UPDATE returns the promise of [stock.updateOne] (line 92): a write
    that rejects ends the request with the error of the store. *)
Lemma update_forwards_write_failure (o : env) (req : request) (s : db)
    (u : identity) (obj : fields) (stock : document) :
  req_user req = Some u →
  req_body req !! "stock" = Some obj →
  outcome (Stock_findById o (req_params_id req) s) = inr (Some stock) →
  owner_ref (doc_fields stock) = Some u →
  save_rejects o = true →
  outcome (update o req s) = inl StoreError.
Proof.
  intros Hauth Hobj (Hq & Hid & d & Hd & ->)%findById_found Hown Hw.
  cbn [doc_fields] in Hown. run_unfold.
  repeat (first [rewrite Hauth | rewrite removeBlanks_lookup, Hobj
                | rewrite Hq | rewrite Hid | rewrite Hd | rewrite Hw];
          run_simpl).
  by destruct (decide (owner_ref d = Some u)).
Qed.

(** DESTROY does not return the promise of [stock.deleteOne] (line 109):
    the owner's request is answered 204 whatever becomes of the removal. *)
Lemma destroy_ignores_removal_outcome (o : env) (req : request) (s : db)
    (u : identity) (stock : document) :
  req_user req = Some u →
  outcome (Stock_findById o (req_params_id req) s) = inr (Some stock) →
  owner_ref (doc_fields stock) = Some u →
  outcome (destroy o req s) = inr (Response 204 NoContent).
Proof.
  intros Hauth (Hq & Hid & d & Hd & ->)%findById_found Hown.
  cbn [doc_fields] in Hown. run_unfold.
  repeat (first [rewrite Hauth | rewrite Hq | rewrite Hid | rewrite Hd];
          run_simpl).
  destruct (decide (owner_ref d = Some u)); [|done]. run_simpl.
  by destruct (save_rejects o).
Qed.

(** C3, at the failing input.  Alice deletes her stock while the store
    rejects writes: the removal is handed to the store and rejects with
    [StoreError], and the request is answered 204 all the same, the
    document still being in the store. *)
Theorem destroy_swallows_removal_failure :
  outcome (stock_deleteOne Sample.failing_writes
             (Document "5a7db6c74d55bc51bdf39793" Sample.aapl None) Sample.db1)
  = inl StoreError ∧
  trace (destroy Sample.failing_writes Sample.delete_by_owner Sample.db1)
  = [EvRequireToken; EvFindById "5a7db6c74d55bc51bdf39793"; EvHandle404;
     EvRequireOwnership; EvDeleteOne "5a7db6c74d55bc51bdf39793";
     EvRespond 204] ∧
  outcome (destroy Sample.failing_writes Sample.delete_by_owner Sample.db1)
  = inr (Response 204 NoContent) ∧
  store (destroy Sample.failing_writes Sample.delete_by_owner Sample.db1)
  = Sample.db1.
Proof. repeat split; by vm_compute. Qed.

(** The scenario of section 8, with a store that takes the removal: DELETE
    by the owner is a 204, and a GET of the identifier is then a 404. *)
Example delete_by_owner_then_show :
  outcome (destroy Sample.calm Sample.delete_by_owner Sample.db1)
  = inr (Response 204 NoContent) ∧
  outcome (show Sample.calm Sample.delete_by_owner
             (store (destroy Sample.calm Sample.delete_by_owner Sample.db1)))
  = inl NotFound.
Proof. split; by vm_compute. Qed.

(** ** Order of the steps *)

(** C5 as it is stated fails on the owner's PATCH: the run goes through
    all eight steps, with the sanitizer second and the removal of [owner]
    third, which is not the order of section 4.4. *)
Lemma update_sanitizes_before_discarding_owner :
  step_of <$> trace (update Sample.calm Sample.patch_by_owner Sample.db1)
  = [RequireAuthentication; FieldSanitizer; DiscardClientOwner; LookupById;
     NotFoundGuard; OwnershipGuard; PartialUpdate; Respond 204] ∧
  ¬ (step_of <$> trace (update Sample.calm Sample.patch_by_owner Sample.db1)
     = claimed_update_order).
Proof. split; [by vm_compute|]. vm_compute. discriminate. Qed.

(** C5, amended.  The steps of every update request are an initial part
    of: require authentication, Field Sanitizer, discard the client's
    owner, lookup by id, Not-Found Guard, Ownership Guard, partial update,
    respond 204.  A request that is answered went through all eight and is
    answered 204 without a body; any other one ends with an error after
    fewer steps. *)
Theorem update_steps_in_order (o : env) (req : request) (s : db) :
  step_of <$> trace (update o req s)
  = take (length (trace (update o req s))) update_order ∧
  ((outcome (update o req s) = inr (Response 204 NoContent) ∧
    length (trace (update o req s)) = 8) ∨
   (∃ e, outcome (update o req s) = inl e ∧
         length (trace (update o req s)) < 8)).
Proof.
  run_cases; (split; [reflexivity|]);
    first [ left; split; reflexivity
          | right; eexists; split; [reflexivity|cbn [length]; lia] ].
Qed.

(** ** Listing *)

(** C10.  The list route never ends with [NotFound] and never evaluates
    the not-found guard; on a store without stocks it answers 200 with the
    empty collection (and forwards the error of the store when the query
    itself rejects). *)
Theorem index_is_never_NotFound (o : env) (req : request) (s : db) :
  ¬ (outcome (index o req s) = inl NotFound) ∧
  ¬ (EvHandle404 ∈ trace (index o req s)) ∧
  outcome (index o req (Db ∅ (users s)))
  = if find_rejects o then inl StoreError
    else inr (Response 200 (StocksJson [])).
Proof.
  run_cases; rewrite ?stocks_empty, ?map_to_list_empty; repeat split;
    try done; intros Hin; not_in_trace Hin.
Qed.


(** ** The router as a whole *)

(** X1.  A request without a user to a route behind [requireToken]
    (POST, PATCH, DELETE) ends with [Unauthorized] after that one step: no
    lookup, no write, and the store is what it was. *)
Theorem unauthenticated_never_reaches_store
    (r : route) (o : env) (req : request) (s : db)
    (Hprot : protected r = true)
    (Hanon : req_user req = None) :
  handler r o req s = Run (inl Unauthorized) s [EvRequireToken].
Proof.
  destruct r; try discriminate Hprot; cbn [handler]; run_unfold;
    by rewrite Hanon.
Qed.

Lemma unauthenticated_never_reaches_store_witness :
  handler Destroy Sample.calm Scenario.anonymous_delete Sample.db1
  = Run (inl Unauthorized) Sample.db1 [EvRequireToken].
Proof.
  apply unauthenticated_never_reaches_store; reflexivity.
Defined.

(** X2.  The two GET routes have no [requireToken]: their run is the same
    whoever sends the request and whatever its body is (so also for the
    request of [curl-scripts/stocks/index.sh], with or without a valid
    token).  They leave the store as it is, hand no write to it, evaluate no
    ownership guard, answer with 200 only, and fail with [NotFound] or the
    error of the store only. *)
Theorem reads_are_public_and_pure
    (r : route) (o : env) (req : request) (s : db)
    (u : option identity) (b : payload)
    (Hread : protected r = false) :
  handler r o (Request u (req_params_id req) b) s = handler r o req s ∧
  store (handler r o req s) = s ∧
  Forall (λ e, is_write e = false ∧ e ≠ EvRequireToken
               ∧ e ≠ EvRequireOwnership)
    (trace (handler r o req s)) ∧
  match outcome (handler r o req s) with
  | inl e => e = NotFound ∨ e = StoreError
  | inr resp => status resp = 200
  end.
Proof.
  destruct r; try discriminate Hread; cbn [handler];
    (split; [reflexivity|]); run_cases;
    (split; [reflexivity|]); (split; [trace_forall; done|]); auto.
Qed.

Lemma reads_are_public_and_pure_witness :
  handler Index Sample.calm
    (Request (Some Sample.bob) (req_params_id (Scenario.index_sh None)) ∅)
    Sample.db1
  = handler Index Sample.calm (Scenario.index_sh None) Sample.db1 ∧
  store (handler Index Sample.calm (Scenario.index_sh None) Sample.db1)
  = Sample.db1 ∧
  Forall (λ e, is_write e = false ∧ e ≠ EvRequireToken
               ∧ e ≠ EvRequireOwnership)
    (trace (handler Index Sample.calm (Scenario.index_sh None) Sample.db1)) ∧
  match outcome (handler Index Sample.calm (Scenario.index_sh None) Sample.db1)
  with
  | inl e => e = NotFound ∨ e = StoreError
  | inr resp => status resp = 200
  end.
Proof.
  apply (reads_are_public_and_pure Index Sample.calm (Scenario.index_sh None)
           Sample.db1 (Some Sample.bob) ∅).
  reflexivity.
Defined.

(** X3.  On each of the five routes, a request that ends with an error
    leaves the store as it was. *)
Theorem failed_request_leaves_store
    (r : route) (o : env) (req : request) (s : db) (e : error)
    (Hfail : outcome (handler r o req s) = inl e) :
  store (handler r o req s) = s.
Proof.
  revert Hfail. route_cases r; intros Hfail; done.
Qed.

Lemma failed_request_leaves_store_witness :
  store (handler Create Sample.failing_writes Sample.post_by_bob Sample.db1)
  = Sample.db1.
Proof.
  apply (failed_request_leaves_store Create Sample.failing_writes
           Sample.post_by_bob Sample.db1 StoreError).
  by vm_compute.
Defined.

(** X4.  No route changes the users collection, and a request hands at
    most one write to the store. *)
Theorem at_most_one_write_and_users_kept
    (r : route) (o : env) (req : request) (s : db) :
  users (store (handler r o req s)) = users s ∧
  (length (List.filter is_write (trace (handler r o req s))) ≤ 1)%nat.
Proof.
  route_cases r;
    (split; [by rewrite ?users_alter_stock, ?users_delete_stock|]);
    cbn [List.filter is_write length]; lia.
Qed.

(** X5.  A request that gets past [requireToken] either is answered by
    the route or ends with an error handed on, never both: a run that
    answers has sent exactly one response, as its last step and with the
    status of its route (200 for the GET routes, 201 for POST, 204 for PATCH
    and DELETE); a run that ends with an error has sent none. *)
Theorem answers_once_or_forwards
    (r : route) (o : env) (req : request) (s : db)
    (Hpass : admitted r req) :
  match outcome (handler r o req s) with
  | inr resp =>
      status resp = success_status r ∧
      List.filter is_respond (trace (handler r o req s))
      = [EvRespond (success_status r)] ∧
      last (trace (handler r o req s)) = Some (EvRespond (success_status r))
  | inl e =>
      e ≠ Unauthorized ∧
      List.filter is_respond (trace (handler r o req s)) = []
  end.
Proof.
  assert (protected r = false ∨ ∃ u, req_user req = Some u) as Hu.
  { destruct Hpass as [|[u Hu]]; eauto. }
  revert Hu. route_cases r; intros [[=]|[? [=]]]; repeat split; done.
Qed.

Lemma answers_once_or_forwards_witness :
  match outcome (handler Update Sample.calm Sample.patch_by_other Sample.db1)
  with
  | inr resp =>
      status resp = success_status Update ∧
      List.filter is_respond
        (trace (handler Update Sample.calm Sample.patch_by_other Sample.db1))
      = [EvRespond (success_status Update)] ∧
      last (trace (handler Update Sample.calm Sample.patch_by_other Sample.db1))
      = Some (EvRespond (success_status Update))
  | inl e =>
      e ≠ Unauthorized ∧
      List.filter is_respond
        (trace (handler Update Sample.calm Sample.patch_by_other Sample.db1))
      = []
  end.
Proof.
  apply answers_once_or_forwards. right. by eexists.
Defined.



(** ** Bodies without a [stock] object *)

(** X7.  POST and PATCH by an authenticated requester whose body has no
    [stock] object end with a [TypeError] (lines 64 and 82 touch a property
    of [req.body.stock]) before any call of the store. *)
Theorem missing_stock_is_TypeError
    (r : route) (o : env) (req : request) (s : db) (u : identity)
    (Hr : r = Create ∨ r = Update)
    (Hauth : req_user req = Some u)
    (Hnone : req_body req !! "stock" = None) :
  outcome (handler r o req s) = inl TypeError ∧
  store (handler r o req s) = s ∧
  Forall (λ e, is_store_call e = false) (trace (handler r o req s)).
Proof.
  destruct Hr as [-> | ->]; cbn [handler]; run_unfold;
    repeat (first [rewrite Hauth | rewrite removeBlanks_lookup
                  | rewrite Hnone]; run_simpl);
    repeat split; trace_forall; done.
Qed.

Lemma missing_stock_is_TypeError_witness :
  outcome (handler Create Sample.calm Scenario.post_empty_body Sample.db1)
  = inl TypeError ∧
  store (handler Create Sample.calm Scenario.post_empty_body Sample.db1)
  = Sample.db1 ∧
  Forall (λ e, is_store_call e = false)
    (trace (handler Create Sample.calm Scenario.post_empty_body Sample.db1)).
Proof.
  apply (missing_stock_is_TypeError Create Sample.calm
           Scenario.post_empty_body Sample.db1 Sample.alice);
    [by left|reflexivity|by vm_compute].
Defined.


(** ** What an update changes *)

Lemma owner_ref_merge (upd d : fields) :
  upd !! "owner" = None → owner_ref (upd ∪ d) = owner_ref d.
Proof. intros H. unfold owner_ref. by rewrite merge_keeps_owner. Qed.

Lemma patched_lookup (o : env) (obj d : fields) (k : string) :
  (shaped o (delete "owner" (strip_blanks obj)) ∪ d) !! k = patched o obj d k.
Proof.
  unfold patched. destruct (decide (k = "owner")) as [->|Hk].
  - apply merge_keeps_owner. by rewrite shaped_owner, lookup_delete_eq.
  - rewrite lookup_union, shaped_lookup, lookup_delete_ne,
      strip_blanks_lookup by done.
    unfold cast. destruct (obj !! k) as [v|] eqn:Hv.
    + destruct (is_blank v) eqn:Hb.
      * apply is_blank_spec in Hb as ->. rewrite decide_True by done.
        cbn [mbind option_bind]. by rewrite (left_id None _).
      * rewrite decide_False by (intros [= ->]; done).
        cbn [mbind option_bind]. rewrite decide_False by done.
        destruct (cast_path o k v); [|by rewrite (left_id None _)].
        by destruct (d !! k).
    + rewrite decide_False by done. cbn [mbind option_bind].
      by rewrite (left_id None _).
Qed.

(** The run of the owner's PATCH that goes through. *)
Lemma update_run (o : env) (req : request) (s : db)
    (u : identity) (obj d : fields) :
  req_user req = Some u →
  req_body req !! "stock" = Some obj →
  find_rejects o = false →
  stocks s !! req_params_id req = Some d →
  owner_ref d = Some u →
  save_rejects o = false →
  malformed_set (delete "owner" (strip_blanks obj)) = false →
  update o req s
  = Run (inr (Response 204 NoContent))
        (alter_stock (updated o (delete "owner" (strip_blanks obj)))
           (req_params_id req) s)
        [EvRequireToken; EvRemoveBlanks; EvDiscardOwner;
         EvFindById (req_params_id req); EvHandle404; EvRequireOwnership;
         EvUpdateOne (req_params_id req) (delete "owner" (strip_blanks obj));
         EvRespond 204].
Proof.
  intros Hauth Hobj Hq Hd Hown Hsave Hset.
  pose proof (stocks_lookup_valid _ _ _ Hd) as Hid. run_unfold.
  repeat (first [rewrite Hauth | rewrite removeBlanks_lookup, Hobj
                | rewrite Hq | rewrite Hid | rewrite Hd | rewrite Hsave
                | rewrite Hset]; run_simpl).
  by rewrite decide_True.
Qed.

Lemma operator_free_well_formed (upd : fields) :
  operator_free upd → malformed_set upd = false.
Proof.
  intros Hfree. unfold malformed_set.
  by rewrite (operator_free_no_set upd Hfree).
Qed.

(** X8.  When the owner's PATCH without update operators goes through,
    the stored document is the old one with, for every field other than
    [owner], the value of the payload as the schema casts it, where the
    payload has one that is not the empty string and the schema has such a
    path; the other fields, and [owner], keep their stored value. *)
Theorem update_overwrites_non_blank_fields
    (o : env) (req : request) (s : db)
    (u : identity) (obj d : fields)
    (Hauth : req_user req = Some u)
    (Hbody : req_body req !! "stock" = Some obj)
    (Hplain : operator_free obj)
    (Hquery : find_rejects o = false)
    (Hd : stocks s !! req_params_id req = Some d)
    (Hown : owner_ref d = Some u)
    (Hsave : save_rejects o = false) :
  outcome (update o req s) = inr (Response 204 NoContent) ∧
  ∃ d', stocks (store (update o req s)) !! req_params_id req = Some d' ∧
        ∀ k, d' !! k = patched o obj d k.
Proof.
  pose proof (operator_free_sanitized obj Hplain) as Hfree.
  rewrite (update_run o req s u obj d)
    by auto using operator_free_well_formed.
  cbn [outcome store]. split; [done|].
  rewrite stocks_alter_stock, lookup_alter_eq, Hd. cbn [fmap option_fmap option_map].
  rewrite updated_operator_free by done.
  eexists. split; [done|]. apply patched_lookup.
Qed.

Lemma update_overwrites_non_blank_fields_witness :
  outcome (update Sample.calm Sample.patch_by_owner Sample.db1)
  = inr (Response 204 NoContent) ∧
  ∃ d', stocks (store (update Sample.calm Sample.patch_by_owner Sample.db1))
          !! req_params_id Sample.patch_by_owner = Some d' ∧
        ∀ k, d' !! k
             = patched Sample.calm
                 {[ "title" := VStr ""; "text" := VStr "sell";
                    "owner" := VStr Sample.bob ]} Sample.aapl k.
Proof.
  apply (update_overwrites_non_blank_fields Sample.calm Sample.patch_by_owner
           Sample.db1 Sample.alice); try by vm_compute.
  intros k v Hk. 
  apply lookup_insert_Some in Hk as [[<- _]|[_ Hk]]; [done|].
  apply lookup_insert_Some in Hk as [[<- _]|[_ Hk]]; [done|].
  apply lookup_singleton_Some in Hk as [<- _]. done.
Defined.



Lemma merge_twice (upd d : fields) : upd ∪ (upd ∪ d) = upd ∪ d.
Proof. by rewrite (assoc_L (∪)), (idemp_L (∪)). Qed.

Lemma alter_stock_twice (f : fields → fields) (id : doc_id) (s : db) :
  (∀ d, f (f d) = f d) →
  alter_stock f id (alter_stock f id s) = alter_stock f id s.
Proof.
  intros Hf. unfold alter_stock.
  destruct (cast_id id) as [i|] eqn:Hid; cbn [docs users]; rewrite ?Hid; [|done].
  f_equal. rewrite alter_alter_eq. apply alter_ext. intros d _. apply Hf.
Qed.

Lemma owner_at_alter_stock (f : fields → fields) (id : doc_id) (s : db)
    (id' : doc_id) :
  (∀ d, f d !! "owner" = d !! "owner") →
  owner_at (alter_stock f id s) id' = owner_at s id'.
Proof.
  intros Hf. unfold owner_at. rewrite stocks_alter_stock.
  destruct (decide (id = id')) as [->|Hne].
  - rewrite lookup_alter_eq. destruct (stocks s !! id') as [d|]; [|done].
    cbn. apply Hf.
  - by rewrite lookup_alter_ne.
Qed.

Lemma plain_update_keeps_owner (o : env) (obj d : fields) :
  operator_free obj →
  updated o (delete "owner" (strip_blanks obj)) d !! "owner" = d !! "owner".
Proof.
  intros Hfree.
  rewrite updated_operator_free by by apply operator_free_sanitized.
  apply merge_keeps_owner. by rewrite shaped_owner, lookup_delete_eq.
Qed.

(** X17.  A PATCH whose [stock] object has no update operator never
    alters an owner: whatever the payload says about [owner], every
    document of the store has after the request the owner it had before. *)
Theorem plain_update_preserves_owner
    (o : env) (req : request) (s : db) (id : doc_id)
    (Hplain : ∀ obj, req_body req !! "stock" = Some obj → operator_free obj) :
  owner_at (store (update o req s)) id = owner_at s id.
Proof.
  run_unfold.
  destruct (req_user req) as [u|]; run_simpl; [|done].
  rewrite removeBlanks_lookup.
  destruct (req_body req !! "stock") as [obj|] eqn:Hobj; run_simpl; [|done].
  specialize (Hplain obj eq_refl).
  repeat run_case; try done.
  apply owner_at_alter_stock. intros d'. by apply plain_update_keeps_owner.
Qed.

Lemma plain_update_preserves_owner_witness :
  owner_at (store (update Sample.calm Sample.patch_by_owner Sample.db1))
    "5a7db6c74d55bc51bdf39793"
  = owner_at Sample.db1 "5a7db6c74d55bc51bdf39793".
Proof.
  apply plain_update_preserves_owner.
  intros obj [= <-] k v Hk.
  apply lookup_insert_Some in Hk as [[<- _]|[_ Hk]]; [done|].
  apply lookup_insert_Some in Hk as [[<- _]|[_ Hk]]; [done|].
  apply lookup_singleton_Some in Hk as [<- _]. done.
Defined.

(** X10.  PATCH without update operators is idempotent: the same request
    under the same conditions, run on the store that its first run left,
    has the same outcome and steps and leaves that store as it is. *)
Theorem update_is_idempotent (o : env) (req : request) (s : db)
    (Hplain : ∀ obj, req_body req !! "stock" = Some obj → operator_free obj) :
  update o req (store (update o req s)) = update o req s.
Proof.
  run_unfold.
  destruct (req_user req) as [u|]; run_simpl; [|done].
  rewrite removeBlanks_lookup.
  destruct (req_body req !! "stock") as [obj|] eqn:Hobj; run_simpl; [|done].
  specialize (Hplain obj eq_refl).
  destruct (find_rejects o); run_simpl; [done|].
  destruct (is_object_id (req_params_id req)); run_simpl; [|done].
  destruct (stocks s !! req_params_id req) as [d|] eqn:Hd; run_simpl;
    [|by rewrite Hd].
  destruct (decide (owner_ref d = Some u)) as [Hown|Hown]; run_simpl.
  2: { rewrite Hd. run_simpl. by rewrite decide_False. }
  destruct (save_rejects o); run_simpl.
  { rewrite Hd. run_simpl. by rewrite decide_True. }
  destruct (malformed_set _); run_simpl.
  { rewrite Hd. run_simpl. by rewrite decide_True. }
  rewrite stocks_alter_stock, lookup_alter_eq, Hd. run_simpl.
  assert (owner_ref (updated o (delete "owner" (strip_blanks obj)) d)
          = owner_ref d) as ->.
  { unfold owner_ref. by rewrite plain_update_keeps_owner. }
  rewrite decide_True by done. run_simpl.
  f_equal. apply alter_stock_twice. intros d'.
  rewrite !updated_operator_free by by apply operator_free_sanitized.
  apply merge_twice.
Qed.

Lemma update_is_idempotent_witness :
  update Sample.calm Sample.patch_by_owner
    (store (update Sample.calm Sample.patch_by_owner Sample.db1))
  = update Sample.calm Sample.patch_by_owner Sample.db1.
Proof.
  apply update_is_idempotent.
  intros obj [= <-] k v Hk.
  apply lookup_insert_Some in Hk as [[<- _]|[_ Hk]]; [done|].
  apply lookup_insert_Some in Hk as [[<- _]|[_ Hk]]; [done|].
  apply lookup_singleton_Some in Hk as [<- _]. done.
Defined.

(** ** What a creation and a removal change *)

Lemma create_run (o : env) (req : request) (s : db)
    (u : identity) (obj : fields) :
  req_user req = Some u →
  req_body req !! "stock" = Some obj →
  schema_accepts o (<["owner" := VStr u]> obj) = true →
  save_rejects o = false →
  stocks s !! fresh_id o = None →
  create o req s
  = Run (inr (Response 201
               (StockJson (Document (fresh_id o)
                             (shaped o (<["owner" := VStr u]> obj)) None))))
        (insert_stock (new_oid o) (shaped o (<["owner" := VStr u]> obj)) s)
        [EvRequireToken; EvSetOwner; EvCreate (<["owner" := VStr u]> obj);
         EvRespond 201].
Proof.
  intros Hauth Hbody Hvalid Hsave Hfresh. run_unfold.
  by repeat (first [rewrite Hauth | rewrite Hbody | rewrite Hvalid
                   | rewrite Hsave | rewrite Hfresh]; run_simpl).
Qed.

Lemma destroy_run (o : env) (req : request) (s : db)
    (u : identity) (d : fields) :
  req_user req = Some u →
  find_rejects o = false →
  stocks s !! req_params_id req = Some d →
  owner_ref d = Some u →
  save_rejects o = false →
  destroy o req s
  = Run (inr (Response 204 NoContent))
        (delete_stock (req_params_id req) s)
        [EvRequireToken; EvFindById (req_params_id req); EvHandle404;
         EvRequireOwnership; EvDeleteOne (req_params_id req); EvRespond 204].
Proof.
  intros Hauth Hq Hd Hown Hsave.
  pose proof (stocks_lookup_valid _ _ _ Hd) as Hid. run_unfold.
  repeat (first [rewrite Hauth | rewrite Hq | rewrite Hid | rewrite Hd
                | rewrite Hsave]; run_simpl).
  by rewrite decide_True.
Qed.

Lemma show_run_found (o : env) (req : request) (s : db) (d : fields) :
  find_rejects o = false →
  stocks s !! req_params_id req = Some d →
  show o req s
  = Run (inr (Response 200
               (StockJson (Document (req_params_id req) d
                             (owner_ref d ≫= (users s !!.))))))
        s [EvFindById (req_params_id req); EvHandle404; EvRespond 200].
Proof.
  intros Hq Hd. pose proof (stocks_lookup_valid _ _ _ Hd) as Hid.
  run_unfold.
  by repeat (first [rewrite Hq | rewrite Hid | rewrite Hd]; run_simpl).
Qed.

Lemma show_run_absent (o : env) (req : request) (s : db) :
  find_rejects o = false →
  is_object_id (req_params_id req) = true →
  stocks s !! req_params_id req = None →
  outcome (show o req s) = inl NotFound.
Proof.
  intros Hq Hid Hd. run_unfold.
  by repeat (first [rewrite Hq | rewrite Hid | rewrite Hd]; run_simpl).
Qed.

(** X11.  CREATE has no [removeBlanks]: when a POST goes through, what is
    handed to [Stock.create] is the [stock] object of the payload as it was
    sent, blank fields included, with [owner] set to the requester.  The
    new document has that owner and, of each other field, what the schema
    keeps; the other documents and the users are what they were. *)
Theorem create_stores_the_payload_as_sent
    (o : env) (req : request) (s : db) (u : identity) (obj : fields)
    (Hauth : req_user req = Some u)
    (Hbody : req_body req !! "stock" = Some obj)
    (Hvalid : schema_accepts o (<["owner" := VStr u]> obj) = true)
    (Hsave : save_rejects o = false)
    (Hfresh : stocks s !! fresh_id o = None) :
  EvCreate (<["owner" := VStr u]> obj) ∈ trace (create o req s) ∧
  (∃ d, stocks (store (create o req s)) !! fresh_id o = Some d ∧
        ∀ k, d !! k = if decide (k = "owner") then Some (VStr u)
                      else obj !! k ≫= cast_path o k) ∧
  delete (fresh_id o) (stocks (store (create o req s))) = stocks s ∧
  users (store (create o req s)) = users s.
Proof.
  rewrite (create_run o req s u obj) by done. cbn [store trace].
  rewrite stocks_insert_stock. unfold fresh_id in *.
  split; [do 2 apply list_elem_of_further; apply list_elem_of_here|].
  split; [|split; [by apply delete_insert_id|done]].
  eexists. split; [apply lookup_insert_eq|].
  intros k. rewrite shaped_lookup. unfold cast. case_decide as Hk.
  - subst k. by rewrite lookup_insert_eq.
  - rewrite lookup_insert_ne by done. by destruct (obj !! k).
Qed.

Lemma create_stores_the_payload_as_sent_witness :
  EvCreate (<["owner" := VStr Sample.bob]>
              {[ "title" := VStr "MSFT"; "text" := VStr "";
                 "bogus" := VNum 1 ]})
  ∈ trace (create Sample.calm Scenario.post_bogus_field Sample.db1) ∧
  (∃ d, stocks (store (create Sample.calm Scenario.post_bogus_field Sample.db1))
          !! fresh_id Sample.calm = Some d ∧
        ∀ k, d !! k
             = if decide (k = "owner") then Some (VStr Sample.bob)
               else ({[ "title" := VStr "MSFT"; "text" := VStr "";
                        "bogus" := VNum 1 ]} : fields) !! k
                    ≫= cast_path Sample.calm k) ∧
  delete (fresh_id Sample.calm)
    (stocks (store (create Sample.calm Scenario.post_bogus_field Sample.db1)))
  = stocks Sample.db1 ∧
  users (store (create Sample.calm Scenario.post_bogus_field Sample.db1))
  = users Sample.db1.
Proof.
  apply (create_stores_the_payload_as_sent Sample.calm
           Scenario.post_bogus_field Sample.db1 Sample.bob); by vm_compute.
Defined.

(** X12.  When the owner's DELETE goes through and the store takes the
    removal, the answer is 204 and the store is the old one without the
    document named. *)
Theorem destroy_removes_the_target_only
    (o : env) (req : request) (s : db) (u : identity) (d : fields)
    (Hauth : req_user req = Some u)
    (Hquery : find_rejects o = false)
    (Hd : stocks s !! req_params_id req = Some d)
    (Hown : owner_ref d = Some u)
    (Hsave : save_rejects o = false) :
  outcome (destroy o req s) = inr (Response 204 NoContent) ∧
  stocks (store (destroy o req s)) = delete (req_params_id req) (stocks s) ∧
  users (store (destroy o req s)) = users s.
Proof.
  rewrite (destroy_run o req s u d) by done. cbn [outcome store].
  by rewrite stocks_delete_stock, users_delete_stock.
Qed.

Lemma destroy_removes_the_target_only_witness :
  outcome (destroy Sample.calm Sample.delete_by_owner Sample.db1)
  = inr (Response 204 NoContent) ∧
  stocks (store (destroy Sample.calm Sample.delete_by_owner Sample.db1))
  = delete (req_params_id Sample.delete_by_owner) (stocks Sample.db1) ∧
  users (store (destroy Sample.calm Sample.delete_by_owner Sample.db1))
  = users Sample.db1.
Proof.
  apply (destroy_removes_the_target_only Sample.calm Sample.delete_by_owner
           Sample.db1 Sample.alice Sample.aapl); by vm_compute.
Defined.

(** ** One request after another *)

(** X13.  After such a DELETE, a GET of the same identifier ends with
    [NotFound]. *)
Theorem removed_stock_is_gone
    (o : env) (req : request) (s : db) (u : identity) (d : fields)
    (o' : env) (req' : request)
    (Hauth : req_user req = Some u)
    (Hquery : find_rejects o = false)
    (Hd : stocks s !! req_params_id req = Some d)
    (Hown : owner_ref d = Some u)
    (Hsave : save_rejects o = false)
    (Hquery' : find_rejects o' = false)
    (Hsame : req_params_id req' = req_params_id req) :
  outcome (show o' req' (store (destroy o req s))) = inl NotFound.
Proof.
  rewrite (destroy_run o req s u d) by done. cbn [store].
  apply show_run_absent; [done|..].
  - rewrite Hsame. by eapply stocks_lookup_valid.
  - rewrite stocks_delete_stock, Hsame. apply lookup_delete_eq.
Qed.

Lemma removed_stock_is_gone_witness :
  outcome (show Sample.calm Scenario.anonymous_delete
             (store (destroy Sample.calm Sample.delete_by_owner Sample.db1)))
  = inl NotFound.
Proof.
  apply (removed_stock_is_gone Sample.calm Sample.delete_by_owner Sample.db1
           Sample.alice Sample.aapl); by vm_compute.
Defined.

(** X14.  After a POST that went through, a GET of the new identifier
    answers 200 with the very document that the POST answered with, its
    owner populated with the requester's user document. *)
Theorem created_stock_can_be_read
    (o : env) (req : request) (s : db) (u : identity) (obj : fields)
    (o' : env) (req' : request)
    (Hauth : req_user req = Some u)
    (Hbody : req_body req !! "stock" = Some obj)
    (Hvalid : schema_accepts o (<["owner" := VStr u]> obj) = true)
    (Hsave : save_rejects o = false)
    (Hfresh : stocks s !! fresh_id o = None)
    (Hquery' : find_rejects o' = false)
    (Hnew : req_params_id req' = fresh_id o) :
  ∃ stock,
    outcome (create o req s) = inr (Response 201 (StockJson stock)) ∧
    outcome (show o' req' (store (create o req s)))
    = inr (Response 200
             (StockJson (Document (doc_key stock) (doc_fields stock)
                           (users s !! u)))).
Proof.
  rewrite (create_run o req s u obj) by done. cbn [store outcome].
  eexists. split; [done|]. cbn [doc_key doc_fields].
  rewrite (show_run_found o' req' _ (shaped o (<["owner" := VStr u]> obj))).
  - cbn [outcome]. rewrite Hnew, users_insert_stock. unfold owner_ref.
    by rewrite shaped_owner, lookup_insert_eq.
  - done.
  - rewrite stocks_insert_stock, Hnew. apply lookup_insert_eq.
Qed.

Lemma created_stock_can_be_read_witness :
  ∃ stock,
    outcome (create Sample.calm Scenario.post_bogus_field Sample.db1)
    = inr (Response 201 (StockJson stock)) ∧
    outcome (show Sample.calm Scenario.get_new
               (store (create Sample.calm Scenario.post_bogus_field Sample.db1)))
    = inr (Response 200
             (StockJson (Document (doc_key stock) (doc_fields stock)
                           (users Sample.db1 !! Sample.bob)))).
Proof.
  apply (created_stock_can_be_read Sample.calm Scenario.post_bogus_field
           Sample.db1 Sample.bob
           {[ "title" := VStr "MSFT"; "text" := VStr ""; "bogus" := VNum 1 ]});
    by vm_compute.
Defined.


(** ** The list *)

(** X16.  When the query resolves, INDEX answers 200 with exactly the
    stored documents, one entry each, every one with its owner populated
    from the users collection. *)
Theorem index_lists_every_stock (o : env) (req : request) (s : db)
    (Hquery : find_rejects o = false) :
  ∃ l, outcome (index o req s) = inr (Response 200 (StocksJson l)) ∧
       length l = size (stocks s) ∧
       ∀ id d p, Document id d p ∈ l ↔
                 stocks s !! id = Some d ∧ p = owner_ref d ≫= (users s !!.).
Proof.
  run_unfold. rewrite Hquery. run_simpl.
  eexists. split; [reflexivity|]. split.
  - by rewrite !length_fmap, length_map_to_list.
  - intros id d p. rewrite list_fmap_id.
    rewrite <- list_fmap_compose. rewrite list_elem_of_fmap. split.
    + intros ([id' d'] & [= -> -> ->] & Hin%elem_of_map_to_list). done.
    + intros [Hd ->]. exists (id, d). split; [done|].
      by apply elem_of_map_to_list.
Qed.

Lemma index_lists_every_stock_witness :
  ∃ l, outcome (index Sample.calm Scenario.anonymous_delete Sample.db1)
       = inr (Response 200 (StocksJson l)) ∧
       length l = size (stocks Sample.db1) ∧
       ∀ id d p, Document id d p ∈ l ↔
                 stocks Sample.db1 !! id = Some d ∧
                 p = owner_ref d ≫= (users Sample.db1 !!.).
Proof. apply index_lists_every_stock. reflexivity. Defined.
